(** * DistributedGPUExecutor: the multi-worker coordination layer

    A shallow embedding of [vllm/v1/executor/distributed_gpu_executor.py].

    The Python class is an abstract base: the fan-out primitive
    [_run_workers] is left to transport-specific subclasses, and the
    concrete methods ([determine_num_available_blocks], [initialize_cache],
    [save_sharded_state]) are written once against it.  The embedding keeps
    that shape: [_run_workers] is the single method of a type class, the
    concrete methods are definitions over any instance, and the bodies the
    base class itself gives to its abstract methods form one instance.

    Python integers are unbounded, hence [Z].  Methods run in a small
    state-and-exception monad whose state carries the controller's
    chronological event history (log records, entries into and exits from
    [_run_workers]) next to the subclass's own state. *)

From Stdlib Require Import ZArith List String Bool Lia Permutation.
Import ListNotations.
Local Open Scope string_scope.
Local Open Scope list_scope.
Local Open Scope Z_scope.

(** ** Values crossing the dispatch boundary *)

(** Argument payload of a dispatch: the source passes an [int], a [str] or
    [None] ([Optional] parameters). *)
Inductive value : Type :=
| VNone
| VInt (n : Z)
| VStr (s : string).

(** [**kwargs]: an ordered association list of keyword and value. *)
Definition kwargs : Type := list (string * value).

Definition of_optional {A : Type} (inj : A -> value) (o : option A) : value :=
  match o with
  | Some a => inj a
  | None => VNone
  end.

(** What one worker answers to a named operation: the block-count operation
    answers a [Tuple[int, int]], every other operation answers [None]. *)
Inductive reply : Type :=
| RNone
| RBlocks (num_gpu_blocks num_cpu_blocks : Z).

(** A pending handle returned by the asynchronous mode of [_run_workers]. *)
Record Future : Type := mkFuture {
  fut_worker : nat;
  fut_method : string
}.

(** The [Any] returned by [_run_workers]: the per-worker results, or "a list
    of futures rather than blocking on the results". *)
Inductive run_result : Type :=
| Results (rs : list reply)
| Futures (fs : list Future).

(** ** Exceptions and outcomes *)

(** [NotImplementedError] is raised by the source, [ValueError] and
    [TypeError] by the builtins it calls; the source lets whatever
    [_run_workers] raises pass through, and [WorkerExecutionError] is the
    failure the specification has a dispatch surface. *)
Inductive exn : Type :=
| NotImplementedError
| ValueError
| TypeError
| WorkerExecutionError (worker_index : nat) (operation cause : string).

Inductive outcome (A : Type) : Type :=
| Ok (a : A)
| Raise (e : exn).
Arguments Ok {A} a.
Arguments Raise {A} e.

Definition outcome_bind {A B : Type} (o : outcome A) (k : A -> outcome B)
  : outcome B :=
  match o with
  | Ok a => k a
  | Raise e => Raise e
  end.

(** ** The controller's event history *)

Inductive event : Type :=
| ELog (fmt : string) (arg : Z)
| ECall (method : string) (args : list value) (kw : kwargs)
        (async_run_tensor_parallel_workers_only : bool)
        (max_concurrent_workers : option Z)
| EReturn (method : string)
| ERaise (method : string) (e : exn).

Definition is_log (e : event) : bool :=
  match e with
  | ELog _ _ => true
  | _ => false
  end.

Definition is_call_of (m : string) (e : event) : bool :=
  match e with
  | ECall m' _ _ _ _ => String.eqb m m'
  | _ => false
  end.

Record world (T : Type) : Type := mkWorld {
  trace : list event;
  transport : T
}.
Arguments mkWorld {T} trace transport.
Arguments trace {T} w.
Arguments transport {T} w.

(** ** The state-and-exception monad *)

Definition M (T A : Type) : Type := world T -> outcome A * world T.

Definition ret {T A : Type} (a : A) : M T A := fun w => (Ok a, w).

Definition raise {T A : Type} (e : exn) : M T A := fun w => (Raise e, w).

Definition bind {T A B : Type} (c : M T A) (k : A -> M T B) : M T B :=
  fun w =>
    match c w with
    | (Ok a, w') => k a w'
    | (Raise e, w') => (Raise e, w')
    end.

Definition lift_outcome {T A : Type} (o : outcome A) : M T A :=
  fun w => (o, w).

Definition emit {T : Type} (e : event) : M T unit :=
  fun w => (Ok tt, mkWorld (trace w ++ [e]) (transport w)).

Declare Scope exec_scope.
Delimit Scope exec_scope with exec.
Notation "x <- c ;; k" := (bind c (fun x => k))
  (at level 61, c at next level, right associativity) : exec_scope.
Notation "c ;;; k" := (bind c (fun _ => k))
  (at level 61, right associativity) : exec_scope.
Local Open Scope exec_scope.

(** ** Python primitives used by the source *)

(** [b[0]]: a tuple yields its first component; [None] and a future are not
    subscriptable. *)
Definition subscript0 (b : reply) : outcome Z :=
  match b with
  | RBlocks g _ => Ok g
  | RNone => Raise TypeError
  end.

(** The loop of the builtin [min] over a generator: the running minimum is
    replaced when the next item is strictly smaller; an item whose
    evaluation raises ends the loop with that exception. *)
Fixpoint min_loop (cur : Z) (bs : list reply) : outcome Z :=
  match bs with
  | [] => Ok cur
  | b :: bs' =>
      outcome_bind (subscript0 b)
        (fun x => min_loop (if x <? cur then x else cur) bs')
  end.

(** [min(b[0] for b in num_blocks)]; [min] of an empty iterable raises
    [ValueError]. *)
Definition min_first (num_blocks : run_result) : outcome Z :=
  match num_blocks with
  | Results [] => Raise ValueError
  | Results (b :: bs) => outcome_bind (subscript0 b) (fun x => min_loop x bs)
  | Futures [] => Raise ValueError
  | Futures (_ :: _) => Raise TypeError
  end.

(** [logger.info(fmt, arg)] on the module's logger. *)
Definition logger_info {T : Type} (fmt : string) (arg : Z) : M T unit :=
  emit (ELog fmt arg).

(** ** The class *)

(** A concrete executor is a state type [T] (the attributes of [self] the
    subclass adds: its workers and connections) with its implementation of
    the abstract method [_run_workers(method, *args,
    async_run_tensor_parallel_workers_only, max_concurrent_workers,
    **kwargs)]. *)
Class DistributedGPUExecutor (T : Type) : Type := {
  _run_workers :
    string -> list value -> bool -> option Z -> kwargs ->
    T -> outcome run_result * T
}.

Section Methods.
Context {T : Type} `{DistributedGPUExecutor T}.
Variables SchedulerOutput ModelRunnerOutput : Type.

(** A call site [self._run_workers(...)]: the history records when the
    controller enters the dispatch and how it leaves it. *)
Definition call_run_workers (method : string) (args : list value)
    (async_only : bool) (max_concurrent : option Z) (kw : kwargs)
  : M T run_result :=
  emit (ECall method args kw async_only max_concurrent) ;;;
  fun w =>
    match _run_workers method args async_only max_concurrent kw
            (transport w) with
    | (Ok r, t) => (Ok r, mkWorld (trace w ++ [EReturn method]) t)
    | (Raise e, t) => (Raise e, mkWorld (trace w ++ [ERaise method e]) t)
    end.

Definition determine_num_available_blocks : M T (Z * Z) :=
  num_blocks <- call_run_workers "determine_num_available_blocks"
                  [] false None [] ;;
  num_gpu_blocks <- lift_outcome (min_first num_blocks) ;;
  ret (num_gpu_blocks, 0).

Definition initialize_cache (num_gpu_blocks : Z) : M T unit :=
  logger_info "# GPU blocks: %d" num_gpu_blocks ;;;
  call_run_workers "initialize_cache" [VInt num_gpu_blocks]
    false None [] ;;;
  call_run_workers "compile_or_warm_up_model" [] false None [] ;;;
  ret tt.

Definition execute_model (scheduler_output : SchedulerOutput)
  : M T ModelRunnerOutput :=
  raise NotImplementedError.

Definition save_sharded_state (path : string) (pattern : option string)
    (max_size : option Z) : M T unit :=
  call_run_workers "save_sharded_state" [] false None
    [("path", VStr path);
     ("pattern", of_optional VStr pattern);
     ("max_size", of_optional VInt max_size)] ;;;
  ret tt.

Definition check_health : M T unit :=
  raise NotImplementedError.

End Methods.

(** The base class's own body of [_run_workers]. *)
Definition abstract_run_workers {T : Type} (method : string)
    (args : list value) (async_only : bool) (max_concurrent : option Z)
    (kw : kwargs) (self : T) : outcome run_result * T :=
  (Raise NotImplementedError, self).

#[export] Instance base_executor : DistributedGPUExecutor unit :=
  {| _run_workers := abstract_run_workers |}.

(** The base class over any state [T]: an object whose class overrides
    nothing, whatever attributes it carries. *)
Definition base_class (T : Type) : DistributedGPUExecutor T :=
  {| _run_workers := abstract_run_workers |}.

(** ** A transport modelled from the specification

    No implementation of [_run_workers] is part of this module: the
    worker pool and the two dispatch modes below follow the specification's
    description of WorkerHandle, WorkerPool and Dispatcher. *)
Module SpecTransport.

(** Modelled from the spec: the role of a handle (the pool is absent from
    the source); one handle of a pool is the driver, the others are
    remote. *)
Inductive Role : Type := driver | remote.

(** Modelled from the spec: a WorkerHandle (the worker endpoint is absent
    from the source) is an index in the pool, a role, and a connection able
    to execute a named operation with arguments, answering a result or a
    failure cause. *)
Record WorkerHandle : Type := mkWorker {
  index : nat;
  role : Role;
  endpoint : string -> list value -> kwargs -> reply + string
}.

(** Modelled from the spec: what happens on the worker side of a dispatch
    (the transport is absent from the source): an operation is invoked on a
    worker, and the invocation is later resolved, by success or failure. *)
Inductive wevent : Type :=
| WInvoke (i : nat) (op : string) (args : list value) (kw : kwargs)
| WDone (i : nat) (op : string)
| WFailed (i : nat) (op cause : string).

(** Modelled from the spec: the WorkerPool (absent from the source) is an
    ordered, immutable sequence of handles; the state of the transport adds
    the worker-side history. *)
Record cluster : Type := mkCluster {
  pool : list WorkerHandle;
  wtrace : list wevent
}.

(** Modelled from the spec: [driver()] (absent from the source) is the
    handle flagged as driver. *)
Definition is_driver (h : WorkerHandle) : bool :=
  match role h with
  | driver => true
  | remote => false
  end.

Definition drivers (p : list WorkerHandle) : list WorkerHandle :=
  filter is_driver p.

(** Modelled from the spec: [remote_workers()] (absent from the source) is
    all non-driver handles, pool order preserved. *)
Definition remote_workers (p : list WorkerHandle) : list WorkerHandle :=
  filter (fun h => negb (is_driver h)) p.

(** Modelled from the spec: launching an operation on one worker (absent
    from the source). *)
Definition invoke (op : string) (args : list value) (kw : kwargs)
    (h : WorkerHandle) : wevent :=
  WInvoke (index h) op args kw.

(** Modelled from the spec: the resolution of one invocation (absent from
    the source), a value or a structured failure. *)
Definition resolve (op : string) (args : list value) (kw : kwargs)
    (h : WorkerHandle) : wevent :=
  match endpoint h op args kw with
  | inl _ => WDone (index h) op
  | inr cause => WFailed (index h) op cause
  end.

(** Modelled from the spec: the fan-in of a dispatch (absent from the
    source) is the results in pool order, or the first failure in pool order
    as a [WorkerExecutionError] naming worker, operation and cause. *)
Fixpoint gather (op : string) (args : list value) (kw : kwargs)
    (p : list WorkerHandle) : outcome (list reply) :=
  match p with
  | [] => Ok []
  | h :: p' =>
      match endpoint h op args kw with
      | inl r => outcome_bind (gather op args kw p') (fun rs => Ok (r :: rs))
      | inr cause => Raise (WorkerExecutionError (index h) op cause)
      end
  end.

(** Modelled from the spec: All-synchronous dispatch (the subclass method
    is absent from the source) invokes the operation on every worker
    including the driver, returns only when every invocation is resolved,
    and then yields the results in pool order or surfaces the failure. *)
Definition dispatch_all_sync (op : string) (args : list value)
    (kw : kwargs) (c : cluster) : outcome run_result * cluster :=
  (outcome_bind (gather op args kw (pool c)) (fun rs => Ok (Results rs)),
   mkCluster (pool c)
     (wtrace c ++ map (invoke op args kw) (pool c)
               ++ map (resolve op args kw) (pool c))).

(** Modelled from the spec: Remote-asynchronous-subset dispatch (the
    subclass method is absent from the source) invokes the operation on
    the remote workers only and returns one pending handle per invoked
    worker, in pool order, without resolving any invocation.  The launch
    bound throttles how invocations are handed to the transport, not which
    ones are made. *)
Definition dispatch_remote_async (op : string) (args : list value)
    (kw : kwargs) (max_concurrent : option Z) (c : cluster)
  : outcome run_result * cluster :=
  (Ok (Futures (map (fun h => mkFuture (index h) op)
                    (remote_workers (pool c)))),
   mkCluster (pool c)
     (wtrace c ++ map (invoke op args kw) (remote_workers (pool c)))).

(** Modelled from the spec: the mode of a dispatch (the subclass method is
    absent from the source) is All-synchronous unless the asynchronous
    subset is asked for. *)
Definition dispatch (method : string) (args : list value)
    (async_only : bool) (max_concurrent : option Z) (kw : kwargs)
    (c : cluster) : outcome run_result * cluster :=
  if async_only
  then dispatch_remote_async method args kw max_concurrent c
  else dispatch_all_sync method args kw c.

#[export] Instance spec_executor : DistributedGPUExecutor cluster :=
  {| _run_workers := dispatch |}.

Definition is_completion (e : wevent) : bool :=
  match e with
  | WInvoke _ _ _ _ => false
  | _ => true
  end.

(** *** Scenario workers *)

(** A healthy worker: reports the given block counts, accepts every other
    operation. *)
Definition reporting (num_gpu num_cpu : Z)
  : string -> list value -> kwargs -> reply + string :=
  fun op _ _ =>
    if String.eqb op "determine_num_available_blocks"
    then inl (RBlocks num_gpu num_cpu)
    else inl RNone.

(** A worker on which one operation fails with the given cause. *)
Definition failing (bad cause : string) (num_gpu num_cpu : Z)
  : string -> list value -> kwargs -> reply + string :=
  fun op args kw =>
    if String.eqb op bad then inr cause
    else reporting num_gpu num_cpu op args kw.

Definition start (p : list WorkerHandle) : world cluster :=
  mkWorld [] (mkCluster p []).

(** One driver and three remote workers reporting 100, 80, 120 and 90
    primary blocks. *)
Definition pool4 : list WorkerHandle :=
  [ mkWorker 0 driver (reporting 100 7);
    mkWorker 1 remote (reporting 80 3);
    mkWorker 2 remote (reporting 120 0);
    mkWorker 3 remote (reporting 90 11) ].

(** The same primary counts with other secondary counts. *)
Definition pool4' : list WorkerHandle :=
  [ mkWorker 0 driver (reporting 100 0);
    mkWorker 1 remote (reporting 80 64);
    mkWorker 2 remote (reporting 120 5);
    mkWorker 3 remote (reporting 90 0) ].

(** Worker 2 runs out of memory when initializing its cache. *)
Definition pool4_oom : list WorkerHandle :=
  [ mkWorker 0 driver (reporting 100 7);
    mkWorker 1 remote (reporting 80 3);
    mkWorker 2 remote (failing "initialize_cache" "out of memory" 120 0);
    mkWorker 3 remote (reporting 90 11) ].

(** Worker 1 has no room for a single block. *)
Definition pool4_starved : list WorkerHandle :=
  [ mkWorker 0 driver (reporting 100 7);
    mkWorker 1 remote (reporting 0 3);
    mkWorker 2 remote (reporting 120 0);
    mkWorker 3 remote (reporting 90 11) ].

End SpecTransport.

(** ** Vocabulary of the statements *)

(** A worker's report [(num_gpu_blocks, num_cpu_blocks)] as the reply the
    dispatch carries. *)
Definition blocks (p : Z * Z) : reply := RBlocks (fst p) (snd p).

(** The running minimum of [min], on plain integers. *)
Definition running_min (cur : Z) (l : list Z) : Z :=
  fold_left (fun m x => if x <? m then x else m) l cur.

Definition nonpositive (p : Z * Z) : Prop := fst p <= 0.

(** The three events [initialize_cache] itself causes: its log record and
    the entries into its two dispatches. *)
Definition log_record (num_gpu_blocks : Z) : event :=
  ELog "# GPU blocks: %d" num_gpu_blocks.

Definition init_dispatch (num_gpu_blocks : Z) : event :=
  ECall "initialize_cache" [VInt num_gpu_blocks] [] false None.

Definition warm_up_dispatch : event :=
  ECall "compile_or_warm_up_model" [] [] false None.

(** A dispatch entered in the blocking mode over all workers: no
    asynchronous subset, no launch bound.  Other events pass. *)
Definition blocking_call (e : event) : bool :=
  match e with
  | ECall _ _ _ async_only max_concurrent =>
      negb async_only
      && match max_concurrent with
         | None => true
         | Some _ => false
         end
  | _ => true
  end.

(** ** Further scenario pools *)

Module Scenarios.

(** A worker whose connection answers [None] to every operation, the block
    query included. *)
Definition silent : string -> list value -> kwargs -> reply + string :=
  fun _ _ _ => inl RNone.

(** The workers of [pool4] listed in another order. *)
Definition pool4_reordered : list SpecTransport.WorkerHandle :=
  [ SpecTransport.mkWorker 0 SpecTransport.driver
      (SpecTransport.reporting 90 11);
    SpecTransport.mkWorker 1 SpecTransport.remote
      (SpecTransport.reporting 120 0);
    SpecTransport.mkWorker 2 SpecTransport.remote
      (SpecTransport.reporting 100 7);
    SpecTransport.mkWorker 3 SpecTransport.remote
      (SpecTransport.reporting 80 3) ].

(** Every worker has at least the room it has in [pool4]. *)
Definition pool4_roomier : list SpecTransport.WorkerHandle :=
  [ SpecTransport.mkWorker 0 SpecTransport.driver
      (SpecTransport.reporting 100 7);
    SpecTransport.mkWorker 1 SpecTransport.remote
      (SpecTransport.reporting 95 3);
    SpecTransport.mkWorker 2 SpecTransport.remote
      (SpecTransport.reporting 150 0);
    SpecTransport.mkWorker 3 SpecTransport.remote
      (SpecTransport.reporting 90 11) ].

(** Worker 1 cannot answer the block query. *)
Definition pool4_no_report : list SpecTransport.WorkerHandle :=
  [ SpecTransport.mkWorker 0 SpecTransport.driver
      (SpecTransport.reporting 100 7);
    SpecTransport.mkWorker 1 SpecTransport.remote
      (SpecTransport.failing "determine_num_available_blocks"
         "device lost" 80 3);
    SpecTransport.mkWorker 2 SpecTransport.remote
      (SpecTransport.reporting 120 0);
    SpecTransport.mkWorker 3 SpecTransport.remote
      (SpecTransport.reporting 90 11) ].

(** Worker 3 answers [None] where a pair of counts is expected. *)
Definition pool4_silent : list SpecTransport.WorkerHandle :=
  [ SpecTransport.mkWorker 0 SpecTransport.driver
      (SpecTransport.reporting 100 7);
    SpecTransport.mkWorker 1 SpecTransport.remote
      (SpecTransport.reporting 80 3);
    SpecTransport.mkWorker 2 SpecTransport.remote
      (SpecTransport.reporting 120 0);
    SpecTransport.mkWorker 3 SpecTransport.remote silent ].

(** Worker 1 initializes its cache but fails to warm up. *)
Definition pool4_cold : list SpecTransport.WorkerHandle :=
  [ SpecTransport.mkWorker 0 SpecTransport.driver
      (SpecTransport.reporting 100 7);
    SpecTransport.mkWorker 1 SpecTransport.remote
      (SpecTransport.failing "compile_or_warm_up_model"
         "compilation failed" 80 3);
    SpecTransport.mkWorker 2 SpecTransport.remote
      (SpecTransport.reporting 120 0);
    SpecTransport.mkWorker 3 SpecTransport.remote
      (SpecTransport.reporting 90 11) ].

(** Worker 3 cannot write its shard. *)
Definition pool4_disk_full : list SpecTransport.WorkerHandle :=
  [ SpecTransport.mkWorker 0 SpecTransport.driver
      (SpecTransport.reporting 100 7);
    SpecTransport.mkWorker 1 SpecTransport.remote
      (SpecTransport.reporting 80 3);
    SpecTransport.mkWorker 2 SpecTransport.remote
      (SpecTransport.reporting 120 0);
    SpecTransport.mkWorker 3 SpecTransport.remote
      (SpecTransport.failing "save_sharded_state" "disk full" 90 11) ].

End Scenarios.

(** * Properties *)

Import SpecTransport.

(** ** The monad and the call site *)

Section CallSite.
Context {T : Type} `{DistributedGPUExecutor T}.

Lemma call_run_workers_ok (m : string) (a : list value) (b : bool)
    (mc : option Z) (kw : kwargs) (w : world T) (r : run_result) (t : T) :
  _run_workers m a b mc kw (transport w) = (Ok r, t) ->
  call_run_workers m a b mc kw w
  = (Ok r, mkWorld (trace w ++ [ECall m a kw b mc; EReturn m]) t).
Proof.
  intros E. unfold call_run_workers, bind, emit. cbn.
  rewrite E. now rewrite <- app_assoc.
Qed.

Lemma call_run_workers_raise (m : string) (a : list value) (b : bool)
    (mc : option Z) (kw : kwargs) (w : world T) (e : exn) (t : T) :
  _run_workers m a b mc kw (transport w) = (Raise e, t) ->
  call_run_workers m a b mc kw w
  = (Raise e, mkWorld (trace w ++ [ECall m a kw b mc; ERaise m e]) t).
Proof.
  intros E. unfold call_run_workers, bind, emit. cbn.
  rewrite E. now rewrite <- app_assoc.
Qed.

(** Either way the call site adds exactly two events. *)
Lemma call_run_workers_cases (m : string) (a : list value) (b : bool)
    (mc : option Z) (kw : kwargs) (w : world T) :
  (exists r t,
      _run_workers m a b mc kw (transport w) = (Ok r, t) /\
      call_run_workers m a b mc kw w
      = (Ok r, mkWorld (trace w ++ [ECall m a kw b mc; EReturn m]) t))
  \/
  (exists e t,
      _run_workers m a b mc kw (transport w) = (Raise e, t) /\
      call_run_workers m a b mc kw w
      = (Raise e, mkWorld (trace w ++ [ECall m a kw b mc; ERaise m e]) t)).
Proof.
  destruct (_run_workers m a b mc kw (transport w)) as [[r | e] t] eqn:E.
  - left. exists r, t. split; [reflexivity | now apply call_run_workers_ok].
  - right. exists e, t. split; [reflexivity | now apply call_run_workers_raise].
Qed.

End CallSite.

(** ** The minimum *)

Lemma min_loop_blocks (cur : Z) (reports : list (Z * Z)) :
  min_loop cur (map blocks reports) = Ok (running_min cur (map fst reports)).
Proof.
  revert cur. induction reports as [| r rs IH]; intros cur; cbn.
  - reflexivity.
  - apply IH.
Qed.

Lemma running_min_le_start (cur : Z) (l : list Z) : running_min cur l <= cur.
Proof.
  revert cur. induction l as [| x l IH]; intros cur; cbn.
  - lia.
  - specialize (IH (if x <? cur then x else cur)).
    unfold running_min in IH. destruct (Z.ltb_spec x cur); lia.
Qed.

Lemma running_min_lower_bound (cur : Z) (l : list Z) (x : Z) :
  In x l -> running_min cur l <= x.
Proof.
  revert cur. induction l as [| y l IH]; intros cur; cbn.
  - intros [].
  - intros [-> | Hin].
    + pose proof (running_min_le_start (if x <? cur then x else cur) l) as L.
      unfold running_min in L. destruct (Z.ltb_spec x cur); lia.
    + now apply IH.
Qed.

Lemma running_min_attained (cur : Z) (l : list Z) :
  running_min cur l = cur \/ In (running_min cur l) l.
Proof.
  revert cur. induction l as [| y l IH]; intros cur; cbn.
  - now left.
  - destruct (IH (if y <? cur then y else cur)) as [E | Hin].
    + unfold running_min in E. rewrite E.
      destruct (y <? cur); [right; now left | now left].
    + right. now right.
Qed.

Lemma min_first_blocks (r : Z * Z) (reports : list (Z * Z)) :
  min_first (Results (map blocks (r :: reports)))
  = Ok (running_min (fst r) (map fst reports)).
Proof. cbn. apply min_loop_blocks. Qed.

Section Negotiation.
Context {T : Type} `{DistributedGPUExecutor T}.

Lemma determine_num_available_blocks_unfold (w : world T)
    (r : run_result) (t : T) :
  _run_workers "determine_num_available_blocks" [] false None []
    (transport w) = (Ok r, t) ->
  determine_num_available_blocks w
  = (outcome_bind (min_first r) (fun g => Ok (g, 0)),
     mkWorld (trace w ++ [ECall "determine_num_available_blocks"
                            [] [] false None;
                          EReturn "determine_num_available_blocks"]) t).
Proof.
  intros E. unfold determine_num_available_blocks, bind at 1.
  rewrite (call_run_workers_ok _ _ _ _ _ _ _ _ E).
  unfold bind, lift_outcome, ret. now destruct (min_first r).
Qed.

(** A failure of the dispatch leaves [determine_num_available_blocks]
    with that same failure. *)
Lemma determine_num_available_blocks_propagates (w : world T)
    (e : exn) (t : T) :
  _run_workers "determine_num_available_blocks" [] false None []
    (transport w) = (Raise e, t) ->
  fst (determine_num_available_blocks w) = Raise e.
Proof.
  intros E. unfold determine_num_available_blocks, bind at 1.
  now rewrite (call_run_workers_raise _ _ _ _ _ _ _ _ E).
Qed.

End Negotiation.

(** ** Capacity negotiation *)

(** C1.  Whenever the dispatch hands back the reports of a non-empty pool,
    [determine_num_available_blocks] returns a pair whose first component
    is the minimum of the reported primary-block counts (one of the reported
    counts, and no larger than any of them) and whose second component is
    the constant 0. *)
Theorem determine_num_available_blocks_min
    {T : Type} `{DistributedGPUExecutor T}
    (w : world T) (reports : list (Z * Z)) (t : T) :
  reports <> [] ->
  _run_workers "determine_num_available_blocks" [] false None []
    (transport w) = (Ok (Results (map blocks reports)), t) ->
  exists m : Z,
    fst (determine_num_available_blocks w) = Ok (m, 0) /\
    In m (map fst reports) /\
    (forall r, In r reports -> m <= fst r).
Proof.
  intros Hne E. destruct reports as [| r rs]; [congruence |].
  rewrite (determine_num_available_blocks_unfold _ _ _ E).
  rewrite min_first_blocks. cbn [fst outcome_bind].
  exists (running_min (fst r) (map fst rs)). split; [reflexivity |]. split.
  - cbn [map].
    destruct (running_min_attained (fst r) (map fst rs)) as [-> | Hin].
    + now left.
    + now right.
  - intros r' [<- | Hin].
    + apply running_min_le_start.
    + apply running_min_lower_bound. now apply in_map.
Qed.

(** The scenario of the specification: one driver and three remote workers
    reporting 100, 80, 120 and 90 primary blocks. *)
Lemma determine_num_available_blocks_min_witness :
  exists m : Z,
    fst (determine_num_available_blocks (start pool4)) = Ok (m, 0) /\
    In m (map fst [(100, 7); (80, 3); (120, 0); (90, 11)]) /\
    (forall r, In r [(100, 7); (80, 3); (120, 0); (90, 11)] -> m <= fst r).
Proof.
  apply (determine_num_available_blocks_min (start pool4)
           [(100, 7); (80, 3); (120, 0); (90, 11)]
           (snd (dispatch "determine_num_available_blocks" [] false None []
                   (transport (start pool4))))).
  - discriminate.
  - reflexivity.
Defined.

Example negotiate_100_80_120_90 :
  fst (determine_num_available_blocks (start pool4)) = Ok (80, 0).
Proof. reflexivity. Qed.

(** C2, as the code has it.  The reported counts are not validated: when
    the dispatch hands back the reports of a non-empty pool and one of them
    has a non-positive primary-block count, no error is raised; the call
    returns the minimum of the reported counts, which is then non-positive,
    paired with 0. *)
Theorem determine_num_available_blocks_nonpositive
    {T : Type} `{DistributedGPUExecutor T}
    (w : world T) (reports : list (Z * Z)) (t : T) :
  Exists nonpositive reports ->
  _run_workers "determine_num_available_blocks" [] false None []
    (transport w) = (Ok (Results (map blocks reports)), t) ->
  exists m : Z,
    fst (determine_num_available_blocks w) = Ok (m, 0) /\
    m <= 0 /\
    In m (map fst reports) /\
    (forall r, In r reports -> m <= fst r).
Proof.
  intros Hex E.
  assert (Hne : reports <> []) by (intros ->; inversion Hex).
  destruct reports as [| r rs]; [congruence |].
  rewrite (determine_num_available_blocks_unfold _ _ _ E).
  rewrite min_first_blocks. cbn [fst outcome_bind].
  set (m := running_min (fst r) (map fst rs)).
  assert (Hlow : forall r', In r' (r :: rs) -> m <= fst r').
  { intros r' [<- | Hin].
    - apply running_min_le_start.
    - apply running_min_lower_bound. now apply in_map. }
  exists m. split; [reflexivity |]. split; [| split; [| exact Hlow]].
  - apply Exists_exists in Hex. destruct Hex as [p [Hin Hp]].
    specialize (Hlow p Hin). unfold nonpositive in Hp. lia.
  - cbn [map].
    destruct (running_min_attained (fst r) (map fst rs)) as [E' | Hin].
    + left. subst m. now rewrite E'.
    + now right.
Qed.

Lemma determine_num_available_blocks_nonpositive_witness :
  exists m : Z,
    fst (determine_num_available_blocks (start pool4_starved)) = Ok (m, 0) /\
    m <= 0 /\
    In m (map fst [(100, 7); (0, 3); (120, 0); (90, 11)]) /\
    (forall r, In r [(100, 7); (0, 3); (120, 0); (90, 11)] -> m <= fst r).
Proof.
  apply (determine_num_available_blocks_nonpositive (start pool4_starved)
           [(100, 7); (0, 3); (120, 0); (90, 11)]
           (snd (dispatch "determine_num_available_blocks" [] false None []
                   (transport (start pool4_starved))))).
  - apply Exists_cons_tl, Exists_cons_hd. unfold nonpositive. cbn. lia.
  - reflexivity.
Defined.

(** C2, as stated, fails: worker 1 reports 0 primary blocks, and the call
    returns the cache size (0, 0) instead of raising. *)
Lemma nonpositive_report_not_rejected :
  Exists nonpositive [(100, 7); (0, 3); (120, 0); (90, 11)] /\
  fst (_run_workers "determine_num_available_blocks" [] false None []
         (transport (start pool4_starved)))
  = Ok (Results (map blocks [(100, 7); (0, 3); (120, 0); (90, 11)])) /\
  fst (determine_num_available_blocks (start pool4_starved)) = Ok (0, 0) /\
  ~ (exists e : exn,
        fst (determine_num_available_blocks (start pool4_starved)) = Raise e).
Proof.
  split; [| split; [| split]].
  - apply Exists_cons_tl, Exists_cons_hd. unfold nonpositive. cbn. lia.
  - reflexivity.
  - reflexivity.
  - intros [e He]. discriminate He.
Qed.

(** C8.  When the dispatch hands back an empty sequence of reports (a pool
    of zero workers), [determine_num_available_blocks] returns no cache
    size: the minimum over the empty sequence raises [ValueError]. *)
Theorem determine_num_available_blocks_empty
    {T : Type} `{DistributedGPUExecutor T} (w : world T) (t : T) :
  _run_workers "determine_num_available_blocks" [] false None []
    (transport w) = (Ok (Results []), t) ->
  fst (determine_num_available_blocks w) = Raise ValueError /\
  (forall size : Z * Z, fst (determine_num_available_blocks w) <> Ok size).
Proof.
  intros E. rewrite (determine_num_available_blocks_unfold _ _ _ E).
  cbn. split; [reflexivity | discriminate].
Qed.

Lemma determine_num_available_blocks_empty_witness :
  fst (determine_num_available_blocks (start [])) = Raise ValueError /\
  (forall size : Z * Z,
      fst (determine_num_available_blocks (start [])) <> Ok size).
Proof.
  apply (determine_num_available_blocks_empty (start [])
           (mkCluster [] [])).
  reflexivity.
Defined.

(** C10.  The result of [determine_num_available_blocks] does not depend on
    the secondary block counts: two runs whose reports agree on every
    primary count end with the same result. *)
Theorem determine_num_available_blocks_ignores_secondary
    {T : Type} `{DistributedGPUExecutor T}
    (w1 w2 : world T) (reports1 reports2 : list (Z * Z)) (t1 t2 : T) :
  _run_workers "determine_num_available_blocks" [] false None []
    (transport w1) = (Ok (Results (map blocks reports1)), t1) ->
  _run_workers "determine_num_available_blocks" [] false None []
    (transport w2) = (Ok (Results (map blocks reports2)), t2) ->
  map fst reports1 = map fst reports2 ->
  fst (determine_num_available_blocks w1)
  = fst (determine_num_available_blocks w2).
Proof.
  intros E1 E2 Hfst.
  rewrite (determine_num_available_blocks_unfold _ _ _ E1).
  rewrite (determine_num_available_blocks_unfold _ _ _ E2).
  cbn [fst]. f_equal.
  destruct reports1 as [| r1 rs1], reports2 as [| r2 rs2];
    try discriminate Hfst; [reflexivity |].
  rewrite !min_first_blocks. cbn [map] in Hfst.
  injection Hfst as -> ->. reflexivity.
Qed.

Lemma determine_num_available_blocks_ignores_secondary_witness :
  fst (determine_num_available_blocks (start pool4))
  = fst (determine_num_available_blocks (start pool4')).
Proof.
  apply (determine_num_available_blocks_ignores_secondary
           (start pool4) (start pool4')
           [(100, 7); (80, 3); (120, 0); (90, 11)]
           [(100, 0); (80, 64); (120, 5); (90, 0)]
           (snd (dispatch "determine_num_available_blocks" [] false None []
                   (transport (start pool4))))
           (snd (dispatch "determine_num_available_blocks" [] false None []
                   (transport (start pool4'))))).
  - reflexivity.
  - reflexivity.
  - reflexivity.
Defined.

(** ** Cache initialization *)

Section CacheInitialization.
Context {T : Type} `{DistributedGPUExecutor T}.
Variable num_gpu_blocks : Z.

Lemma initialize_cache_init_fails (w : world T) (e : exn) (t : T) :
  _run_workers "initialize_cache" [VInt num_gpu_blocks] false None []
    (transport w) = (Raise e, t) ->
  initialize_cache num_gpu_blocks w
  = (Raise e,
     mkWorld (trace w ++ [log_record num_gpu_blocks;
                          init_dispatch num_gpu_blocks;
                          ERaise "initialize_cache" e]) t).
Proof.
  intros E. unfold initialize_cache, logger_info.
  unfold bind at 1. unfold emit at 1. unfold bind at 1.
  rewrite (call_run_workers_raise _ _ _ _ _ _ e t) by exact E.
  cbn [trace]. now rewrite <- app_assoc.
Qed.

Lemma initialize_cache_warm_up_fails (w : world T) (r : run_result)
    (t : T) (e : exn) (t' : T) :
  _run_workers "initialize_cache" [VInt num_gpu_blocks] false None []
    (transport w) = (Ok r, t) ->
  _run_workers "compile_or_warm_up_model" [] false None [] t
  = (Raise e, t') ->
  initialize_cache num_gpu_blocks w
  = (Raise e,
     mkWorld (trace w ++ [log_record num_gpu_blocks;
                          init_dispatch num_gpu_blocks;
                          EReturn "initialize_cache";
                          warm_up_dispatch;
                          ERaise "compile_or_warm_up_model" e]) t').
Proof.
  intros E1 E2. unfold initialize_cache, logger_info.
  unfold bind at 1. unfold emit at 1. unfold bind at 1.
  rewrite (call_run_workers_ok _ _ _ _ _ _ r t) by exact E1.
  unfold bind at 1.
  rewrite (call_run_workers_raise _ _ _ _ _ _ e t') by exact E2.
  cbn [trace]. now rewrite <- !app_assoc.
Qed.

Lemma initialize_cache_succeeds (w : world T) (r : run_result)
    (t : T) (r' : run_result) (t' : T) :
  _run_workers "initialize_cache" [VInt num_gpu_blocks] false None []
    (transport w) = (Ok r, t) ->
  _run_workers "compile_or_warm_up_model" [] false None [] t
  = (Ok r', t') ->
  initialize_cache num_gpu_blocks w
  = (Ok tt,
     mkWorld (trace w ++ [log_record num_gpu_blocks;
                          init_dispatch num_gpu_blocks;
                          EReturn "initialize_cache";
                          warm_up_dispatch;
                          EReturn "compile_or_warm_up_model"]) t').
Proof.
  intros E1 E2. unfold initialize_cache, logger_info.
  unfold bind at 1. unfold emit at 1. unfold bind at 1.
  rewrite (call_run_workers_ok _ _ _ _ _ _ r t) by exact E1.
  unfold bind at 1.
  rewrite (call_run_workers_ok _ _ _ _ _ _ r' t') by exact E2.
  unfold ret. cbn [trace]. now rewrite <- !app_assoc.
Qed.

(** The three ways an execution of [initialize_cache] can go, each with
    the events it adds to the history. *)
Lemma initialize_cache_history (w : world T) :
  exists tail : list event,
    trace (snd (initialize_cache num_gpu_blocks w))
    = trace w
      ++ log_record num_gpu_blocks :: init_dispatch num_gpu_blocks :: tail /\
    ((exists e, tail = [ERaise "initialize_cache" e]) \/
     (exists e, tail = [EReturn "initialize_cache"; warm_up_dispatch;
                        ERaise "compile_or_warm_up_model" e]) \/
     tail = [EReturn "initialize_cache"; warm_up_dispatch;
             EReturn "compile_or_warm_up_model"]).
Proof.
  destruct (_run_workers "initialize_cache" [VInt num_gpu_blocks]
              false None [] (transport w)) as [[r | e] t] eqn:E1.
  - destruct (_run_workers "compile_or_warm_up_model" [] false None [] t)
      as [[r' | e] t'] eqn:E2.
    + rewrite (initialize_cache_succeeds _ _ _ _ _ E1 E2).
      eexists. split; [reflexivity |]. right. now right.
    + rewrite (initialize_cache_warm_up_fails _ _ _ _ _ E1 E2).
      eexists. split; [reflexivity |]. right. left. now exists e.
  - rewrite (initialize_cache_init_fails _ _ _ E1).
    eexists. split; [reflexivity |]. left. now exists e.
Qed.

End CacheInitialization.

(** Peels one event off a decomposition [l = pre ++ x :: post] of a
    history whose events are known. *)
Ltac peel_event Heq pre :=
  destruct pre as [| ? pre];
  cbn in Heq;
  [ try discriminate Heq
  | first [ injection Heq as <- Heq | discriminate Heq ] ].

(** C6.  Every execution of [initialize_cache] makes exactly one log
    record, of the block count it was given, and makes it before any
    dispatch: the record is the first event of the execution, the entry into
    the cache-initialization dispatch is the second, and no later event is a
    log record. *)
Theorem initialize_cache_logs_once_before_dispatch
    {T : Type} `{DistributedGPUExecutor T} (num_gpu_blocks : Z) (w : world T) :
  exists rest : list event,
    trace (snd (initialize_cache num_gpu_blocks w))
    = trace w
      ++ ELog "# GPU blocks: %d" num_gpu_blocks
      :: ECall "initialize_cache" [VInt num_gpu_blocks] [] false None
      :: rest /\
    Forall (fun e => is_log e = false) rest.
Proof.
  destruct (initialize_cache_history num_gpu_blocks w) as [tail [Htr Hcases]].
  exists tail. split; [exact Htr |].
  destruct Hcases as [[e ->] | [[e ->] | ->]];
    repeat constructor.
Qed.

(** C3.  In every execution of [initialize_cache], the warm-up dispatch
    ([compile_or_warm_up_model]) is issued only after the cache-initialization
    dispatch ([initialize_cache]) has completed: whenever the execution
    enters the warm-up dispatch, the initialization operation was dispatched
    through [_run_workers] on the transport the execution started from and
    returned normally, what the execution did before the warm-up call is
    exactly the log record, the initialization call and that call's normal
    return, and the warm-up operation is dispatched on the transport exactly
    as the completed initialization left it.  [_run_workers] is called in its
    blocking mode over all workers, so its return is the completion of the
    operation on every worker. *)
Theorem warm_up_dispatch_after_initialization
    {T : Type} `{DistributedGPUExecutor T} (num_gpu_blocks : Z) (w : world T)
    (pre post : list event) (args : list value) (kw : kwargs)
    (async_only : bool) (max_concurrent : option Z) :
  trace (snd (initialize_cache num_gpu_blocks w))
  = trace w
    ++ pre
    ++ ECall "compile_or_warm_up_model" args kw async_only max_concurrent
    :: post ->
  In (EReturn "initialize_cache") pre /\
  pre = [ELog "# GPU blocks: %d" num_gpu_blocks;
         ECall "initialize_cache" [VInt num_gpu_blocks] [] false None;
         EReturn "initialize_cache"] /\
  exists (r : run_result) (t : T),
    _run_workers "initialize_cache" [VInt num_gpu_blocks] false None []
      (transport w) = (Ok r, t) /\
    transport (snd (initialize_cache num_gpu_blocks w))
    = snd (_run_workers "compile_or_warm_up_model" [] false None [] t) /\
    (args, kw, async_only, max_concurrent) = ([], [], false, None).
Proof.
  intros Heq.
  destruct (_run_workers "initialize_cache" [VInt num_gpu_blocks]
              false None [] (transport w)) as [[r | e] t] eqn:E1.
  - assert (Hshape :
              exists leave,
                is_call_of "compile_or_warm_up_model" leave = false /\
                initialize_cache num_gpu_blocks w
                = (match leave with
                   | ERaise _ e => Raise e
                   | _ => Ok tt
                   end,
                   mkWorld
                     (trace w
                      ++ [log_record num_gpu_blocks;
                          init_dispatch num_gpu_blocks;
                          EReturn "initialize_cache";
                          warm_up_dispatch; leave])
                     (snd (_run_workers "compile_or_warm_up_model" []
                             false None [] t)))).
    { destruct (_run_workers "compile_or_warm_up_model" [] false None [] t)
        as [[r' | e] t'] eqn:E2.
      - exists (EReturn "compile_or_warm_up_model").
        split; [reflexivity |].
        exact (initialize_cache_succeeds _ _ _ _ _ _ E1 E2).
      - exists (ERaise "compile_or_warm_up_model" e).
        split; [reflexivity |].
        exact (initialize_cache_warm_up_fails _ _ _ _ _ _ E1 E2). }
    destruct Hshape as [leave [Hleave Hrun]]. rewrite Hrun in Heq |- *.
    cbn [snd trace transport] in Heq |- *. apply app_inv_head in Heq.
    unfold log_record, init_dispatch, warm_up_dispatch in Heq.
    peel_event Heq pre. peel_event Heq pre. peel_event Heq pre.
    destruct pre as [| ? pre]; cbn in Heq.
    + injection Heq as <- <- <- <- _.
      split; [right; right; now left |]. split; [reflexivity |].
      exists r, t. repeat split.
    + injection Heq as <- Heq.
      destruct pre as [| ? pre]; cbn in Heq.
      * injection Heq as -> _. cbn in Hleave. discriminate Hleave.
      * injection Heq as _ Heq. destruct pre; discriminate Heq.
  - rewrite (initialize_cache_init_fails _ _ _ _ E1) in Heq.
    cbn [snd trace] in Heq. apply app_inv_head in Heq.
    unfold log_record, init_dispatch in Heq.
    do 4 peel_event Heq pre.
Qed.

Lemma warm_up_dispatch_after_initialization_witness :
  In (EReturn "initialize_cache")
     [ELog "# GPU blocks: %d" 80;
      ECall "initialize_cache" [VInt 80] [] false None;
      EReturn "initialize_cache"] /\
  [ELog "# GPU blocks: %d" 80;
   ECall "initialize_cache" [VInt 80] [] false None;
   EReturn "initialize_cache"]
  = [ELog "# GPU blocks: %d" 80;
     ECall "initialize_cache" [VInt 80] [] false None;
     EReturn "initialize_cache"] /\
  exists (r : run_result) (t : cluster),
    _run_workers "initialize_cache" [VInt 80] false None []
      (transport (start pool4)) = (Ok r, t) /\
    transport (snd (initialize_cache 80 (start pool4)))
    = snd (_run_workers "compile_or_warm_up_model" [] false None [] t) /\
    (@nil value, @nil (string * value), false, @None Z)
    = ([], [], false, None).
Proof.
  apply (warm_up_dispatch_after_initialization 80 (start pool4)
           [ELog "# GPU blocks: %d" 80;
            ECall "initialize_cache" [VInt 80] [] false None;
            EReturn "initialize_cache"]
           [EReturn "compile_or_warm_up_model"]
           [] [] false None).
  reflexivity.
Defined.

(** C4.  When the cache-initialization dispatch fails, [initialize_cache]
    raises that very failure (so whatever worker, operation and cause it
    names), the history of the execution ends with the failed dispatch and
    holds no entry into the warm-up dispatch, and the transport is left as
    the failed dispatch left it: nothing is sent to any worker afterwards. *)
Theorem initialize_cache_failure_skips_warm_up
    {T : Type} `{DistributedGPUExecutor T} (num_gpu_blocks : Z) (w : world T)
    (e : exn) (t : T) :
  _run_workers "initialize_cache" [VInt num_gpu_blocks] false None []
    (transport w) = (Raise e, t) ->
  fst (initialize_cache num_gpu_blocks w) = Raise e /\
  trace (snd (initialize_cache num_gpu_blocks w))
  = trace w
    ++ [ELog "# GPU blocks: %d" num_gpu_blocks;
        ECall "initialize_cache" [VInt num_gpu_blocks] [] false None;
        ERaise "initialize_cache" e] /\
  (forall ev, In ev (trace (snd (initialize_cache num_gpu_blocks w))) ->
              is_call_of "compile_or_warm_up_model" ev = true ->
              In ev (trace w)) /\
  transport (snd (initialize_cache num_gpu_blocks w)) = t.
Proof.
  intros E. rewrite (initialize_cache_init_fails _ _ _ _ E).
  cbn [fst snd trace transport].
  repeat split.
  intros ev Hin Hcall. apply in_app_or in Hin. destruct Hin as [Hin | Hin].
  - exact Hin.
  - cbn in Hin. destruct Hin as [<- | [<- | [<- | []]]]; discriminate Hcall.
Qed.

(** The scenario of the specification: worker 2 fails its cache
    initialization with cause "out of memory". *)
Lemma initialize_cache_failure_skips_warm_up_witness :
  fst (initialize_cache 80 (start pool4_oom))
  = Raise (WorkerExecutionError 2 "initialize_cache" "out of memory") /\
  trace (snd (initialize_cache 80 (start pool4_oom)))
  = trace (start pool4_oom)
    ++ [ELog "# GPU blocks: %d" 80;
        ECall "initialize_cache" [VInt 80] [] false None;
        ERaise "initialize_cache"
          (WorkerExecutionError 2 "initialize_cache" "out of memory")] /\
  (forall ev, In ev (trace (snd (initialize_cache 80 (start pool4_oom)))) ->
              is_call_of "compile_or_warm_up_model" ev = true ->
              In ev (trace (start pool4_oom))) /\
  transport (snd (initialize_cache 80 (start pool4_oom)))
  = snd (dispatch "initialize_cache" [VInt 80] false None []
           (transport (start pool4_oom))).
Proof.
  apply (initialize_cache_failure_skips_warm_up 80 (start pool4_oom)
           (WorkerExecutionError 2 "initialize_cache" "out of memory")
           (snd (dispatch "initialize_cache" [VInt 80] false None []
                   (transport (start pool4_oom))))).
  reflexivity.
Defined.

(** ** Checkpointing *)

(** C5.  [save_sharded_state] makes exactly one dispatch: of the operation
    [save_sharded_state], in the blocking mode over all workers (no
    asynchronous subset, no launch bound), with [path], [pattern] and
    [max_size] passed on unchanged as keywords.  When that dispatch succeeds
    the call returns [None], whatever the workers answered. *)
Theorem save_sharded_state_single_dispatch
    {T : Type} `{DistributedGPUExecutor T}
    (path : string) (pattern : option string) (max_size : option Z)
    (w : world T) (r : run_result) (t : T) :
  _run_workers "save_sharded_state" [] false None
    [("path", VStr path);
     ("pattern", of_optional VStr pattern);
     ("max_size", of_optional VInt max_size)]
    (transport w) = (Ok r, t) ->
  save_sharded_state path pattern max_size w
  = (Ok tt,
     mkWorld
       (trace w
        ++ [ECall "save_sharded_state" []
              [("path", VStr path);
               ("pattern", of_optional VStr pattern);
               ("max_size", of_optional VInt max_size)]
              false None;
            EReturn "save_sharded_state"])
       t).
Proof.
  intros E. unfold save_sharded_state, bind.
  now rewrite (call_run_workers_ok _ _ _ _ _ _ _ _ E).
Qed.

(** The scenario of the specification: [save_state("/ckpt", None, None)]
    with four workers succeeding. *)
Lemma save_sharded_state_single_dispatch_witness :
  save_sharded_state "/ckpt" None None (start pool4)
  = (Ok tt,
     mkWorld
       (trace (start pool4)
        ++ [ECall "save_sharded_state" []
              [("path", VStr "/ckpt");
               ("pattern", of_optional VStr None);
               ("max_size", of_optional VInt None)]
              false None;
            EReturn "save_sharded_state"])
       (snd (dispatch "save_sharded_state" [] false None
               [("path", VStr "/ckpt"); ("pattern", VNone);
                ("max_size", VNone)]
               (transport (start pool4))))).
Proof.
  apply (save_sharded_state_single_dispatch "/ckpt" None None (start pool4)
           (Results [RNone; RNone; RNone; RNone])).
  reflexivity.
Defined.

(** A failure of the dispatch is the failure of [save_sharded_state]. *)
Lemma save_sharded_state_propagates
    {T : Type} `{DistributedGPUExecutor T}
    (path : string) (pattern : option string) (max_size : option Z)
    (w : world T) (e : exn) (t : T) :
  _run_workers "save_sharded_state" [] false None
    [("path", VStr path);
     ("pattern", of_optional VStr pattern);
     ("max_size", of_optional VInt max_size)]
    (transport w) = (Raise e, t) ->
  fst (save_sharded_state path pattern max_size w) = Raise e.
Proof.
  intros E. unfold save_sharded_state, bind.
  now rewrite (call_run_workers_raise _ _ _ _ _ _ _ _ E).
Qed.

(** ** The abstract methods of the base class *)

(** C9.  The bodies the base class gives to [execute_model] and
    [check_health] raise [NotImplementedError] on every call and leave the
    whole state (history and transport) as it was. *)
Theorem abstract_methods_not_implemented
    {T : Type} (SchedulerOutput ModelRunnerOutput : Type)
    (scheduler_output : SchedulerOutput) (w : world T) :
  execute_model SchedulerOutput ModelRunnerOutput scheduler_output w
  = (Raise NotImplementedError, w) /\
  check_health w = (Raise NotImplementedError, w).
Proof. split; reflexivity. Qed.

Lemma base_class_cannot_dispatch (w : world unit) (num_gpu_blocks : Z) :
  fst (determine_num_available_blocks w) = Raise NotImplementedError /\
  fst (initialize_cache num_gpu_blocks w) = Raise NotImplementedError.
Proof. split; reflexivity. Qed.

(** ** The dispatch modes of the modelled transport *)

Lemma drivers_remote_workers_length (p : list WorkerHandle) :
  (List.length (drivers p) + List.length (remote_workers p)
   = List.length p)%nat.
Proof.
  unfold drivers, remote_workers.
  induction p as [| h p IH]; cbn; [reflexivity |].
  destruct (is_driver h); cbn; lia.
Qed.

Lemma remote_workers_are_remote (p : list WorkerHandle) :
  Forall (fun h => role h = remote) (remote_workers p).
Proof.
  apply Forall_forall. intros h Hin.
  apply filter_In in Hin. destruct Hin as [_ Hr].
  unfold is_driver in Hr. destruct (role h); [discriminate | reflexivity].
Qed.

(** C7.  On a pool with exactly one driver, a dispatch with
    [async_run_tensor_parallel_workers_only=True] returns a sequence of
    pending handles, one per remote worker in pool order, hence [N - 1] of
    them for [N] workers; the operation is invoked on the remote workers
    only, and the dispatch returns with no invocation resolved. *)
Theorem remote_async_dispatch_excludes_driver
    (c : cluster) (method : string) (args : list value) (kw : kwargs)
    (max_concurrent : option Z) :
  List.length (drivers (pool c)) = 1%nat ->
  exists fs : list Future,
    fst (_run_workers method args true max_concurrent kw c)
    = Ok (Futures fs) /\
    map fut_worker fs = map index (remote_workers (pool c)) /\
    Forall (fun f => fut_method f = method) fs /\
    List.length fs = (List.length (pool c) - 1)%nat /\
    Forall (fun h => role h = remote) (remote_workers (pool c)) /\
    wtrace (snd (_run_workers method args true max_concurrent kw c))
    = wtrace c ++ map (invoke method args kw) (remote_workers (pool c)) /\
    Forall (fun e => is_completion e = false)
           (map (invoke method args kw) (remote_workers (pool c))).
Proof.
  intros Hone. cbn.
  exists (map (fun h => mkFuture (index h) method) (remote_workers (pool c))).
  split; [reflexivity |]. split; [| split; [| split; [| split; [| split]]]].
  - rewrite map_map. reflexivity.
  - apply Forall_forall. intros f Hin. apply in_map_iff in Hin.
    destruct Hin as [h [<- _]]. reflexivity.
  - rewrite length_map.
    pose proof (drivers_remote_workers_length (pool c)). lia.
  - apply remote_workers_are_remote.
  - reflexivity.
  - apply Forall_forall. intros e Hin. apply in_map_iff in Hin.
    destruct Hin as [h [<- _]]. reflexivity.
Qed.

Lemma remote_async_dispatch_excludes_driver_witness :
  exists fs : list Future,
    fst (_run_workers "execute_model" [] true None [] (mkCluster pool4 []))
    = Ok (Futures fs) /\
    map fut_worker fs = map index (remote_workers pool4) /\
    Forall (fun f => fut_method f = "execute_model") fs /\
    List.length fs = (List.length pool4 - 1)%nat /\
    Forall (fun h => role h = remote) (remote_workers pool4) /\
    wtrace (snd (_run_workers "execute_model" [] true None []
                   (mkCluster pool4 [])))
    = [] ++ map (invoke "execute_model" [] []) (remote_workers pool4) /\
    Forall (fun e => is_completion e = false)
           (map (invoke "execute_model" [] []) (remote_workers pool4)).
Proof.
  apply (remote_async_dispatch_excludes_driver (mkCluster pool4 [])
           "execute_model" [] [] None).
  reflexivity.
Defined.

Example remote_async_dispatch_pool4 :
  fst (_run_workers "execute_model" [] true None [] (mkCluster pool4 []))
  = Ok (Futures [mkFuture 1 "execute_model";
                 mkFuture 2 "execute_model";
                 mkFuture 3 "execute_model"]).
Proof. reflexivity. Qed.

(** ** Ordering on the worker side of the modelled transport *)

Lemma gather_ok_resolved (op : string) (args : list value) (kw : kwargs)
    (p : list WorkerHandle) (rs : list reply) :
  gather op args kw p = Ok rs ->
  forall h, In h p -> resolve op args kw h = WDone (index h) op.
Proof.
  revert rs. induction p as [| h0 p IH]; intros rs Hg h Hin.
  - destruct Hin.
  - cbn in Hg. destruct (endpoint h0 op args kw) as [r | cause] eqn:E;
      [| discriminate Hg].
    destruct (gather op args kw p) as [rs' | e] eqn:G; [| discriminate Hg].
    destruct Hin as [<- | Hin].
    + unfold resolve. now rewrite E.
    + now apply (IH rs').
Qed.

Lemma prefix_without (A : Type) (x : A) (l1 l2 pre post : list A) :
  l1 ++ l2 = pre ++ x :: post ->
  ~ In x l1 ->
  exists pre', pre = l1 ++ pre' /\ l2 = pre' ++ x :: post.
Proof.
  revert pre. induction l1 as [| a l1 IH]; intros pre Heq Hnot.
  - exists pre. now split.
  - destruct pre as [| b pre]; cbn in Heq.
    + injection Heq as -> _. exfalso. apply Hnot. now left.
    + injection Heq as <- Heq.
      destruct (IH pre Heq) as [pre' [-> Hl2]].
      * intros Hin. apply Hnot. now right.
      * exists pre'. now split.
Qed.

Lemma sync_round_has_no_other_invocation (op op' : string)
    (args args' : list value) (kw kw' : kwargs) (p : list WorkerHandle)
    (j : nat) :
  op <> op' ->
  ~ In (WInvoke j op' args' kw')
       (map (invoke op args kw) p ++ map (resolve op args kw) p).
Proof.
  intros Hop Hin. apply in_app_or in Hin. destruct Hin as [Hin | Hin];
    apply in_map_iff in Hin; destruct Hin as [h [Hh _]].
  - unfold invoke in Hh. injection Hh as _ Hh _ _. contradiction.
  - unfold resolve in Hh. destruct (endpoint h op args kw); discriminate Hh.
Qed.

(** On the modelled transport the order holds worker by worker: when the
    warm-up operation is invoked on some worker, every worker of the pool
    has completed its cache initialization. *)
Theorem warm_up_after_every_worker_initialized
    (num_gpu_blocks : Z) (w : world cluster) (pre post : list wevent)
    (j : nat) (args : list value) (kw : kwargs) :
  wtrace (transport (snd (initialize_cache num_gpu_blocks w)))
  = wtrace (transport w)
    ++ pre ++ WInvoke j "compile_or_warm_up_model" args kw :: post ->
  forall h, In h (pool (transport w)) ->
            In (WDone (index h) "initialize_cache") pre.
Proof.
  intros Heq h Hin.
  set (round := map (invoke "initialize_cache" [VInt num_gpu_blocks] [])
                    (pool (transport w))
                ++ map (resolve "initialize_cache" [VInt num_gpu_blocks] [])
                       (pool (transport w))).
  assert (Hnot : ~ In (WInvoke j "compile_or_warm_up_model" args kw) round)
    by (apply sync_round_has_no_other_invocation; discriminate).
  destruct (gather "initialize_cache" [VInt num_gpu_blocks] []
              (pool (transport w))) as [rs | e] eqn:G.
  - assert (E1 : _run_workers "initialize_cache" [VInt num_gpu_blocks]
                   false None [] (transport w)
                 = (Ok (Results rs),
                    mkCluster (pool (transport w))
                      (wtrace (transport w) ++ round))).
    { cbn. unfold dispatch_all_sync. now rewrite G. }
    assert (Hafter :
              wtrace (transport (snd (initialize_cache num_gpu_blocks w)))
              = (wtrace (transport w) ++ round)
                ++ map (invoke "compile_or_warm_up_model" [] [])
                       (pool (transport w))
                ++ map (resolve "compile_or_warm_up_model" [] [])
                       (pool (transport w))).
    { destruct (_run_workers "compile_or_warm_up_model" [] false None []
                  (mkCluster (pool (transport w))
                     (wtrace (transport w) ++ round)))
        as [[r' | e'] t'] eqn:E2.
      - rewrite (initialize_cache_succeeds _ _ _ _ _ _ E1 E2).
        cbn in E2. unfold dispatch_all_sync in E2. cbn in E2.
        injection E2 as _ <-. reflexivity.
      - rewrite (initialize_cache_warm_up_fails _ _ _ _ _ _ E1 E2).
        cbn in E2. unfold dispatch_all_sync in E2. cbn in E2.
        injection E2 as _ <-. reflexivity. }
    rewrite Hafter, <- app_assoc in Heq. apply app_inv_head in Heq.
    destruct (prefix_without _ _ _ _ _ _ Heq Hnot) as [pre' [-> _]].
    apply in_or_app. left. apply in_or_app. right.
    rewrite <- (gather_ok_resolved _ _ _ _ _ G h Hin).
    now apply in_map.
  - assert (E1 : _run_workers "initialize_cache" [VInt num_gpu_blocks]
                   false None [] (transport w)
                 = (Raise e,
                    mkCluster (pool (transport w))
                      (wtrace (transport w) ++ round))).
    { cbn. unfold dispatch_all_sync. now rewrite G. }
    rewrite (initialize_cache_init_fails _ _ _ _ E1) in Heq.
    cbn [snd transport wtrace] in Heq. apply app_inv_head in Heq.
    exfalso. apply Hnot. rewrite Heq. apply in_or_app. right. now left.
Qed.

(** In the out-of-memory scenario no worker is ever asked to warm up: each
    of the four workers is invoked once, for the cache initialization, and
    each invocation is resolved before the failure surfaces. *)
Example out_of_memory_worker_history :
  wtrace (transport (snd (initialize_cache 80 (start pool4_oom))))
  = [WInvoke 0 "initialize_cache" [VInt 80] [];
     WInvoke 1 "initialize_cache" [VInt 80] [];
     WInvoke 2 "initialize_cache" [VInt 80] [];
     WInvoke 3 "initialize_cache" [VInt 80] [];
     WDone 0 "initialize_cache";
     WDone 1 "initialize_cache";
     WFailed 2 "initialize_cache" "out of memory";
     WDone 3 "initialize_cache"].
Proof. reflexivity. Qed.

(** * Further properties of the class *)

Import Scenarios.

(** ** More on the reduction of the reports *)

Lemma running_min_is_minimum (r : Z * Z) (rs : list (Z * Z)) :
  In (running_min (fst r) (map fst rs)) (map fst (r :: rs)) /\
  (forall p, In p (r :: rs) -> running_min (fst r) (map fst rs) <= fst p).
Proof.
  split.
  - cbn [map].
    destruct (running_min_attained (fst r) (map fst rs)) as [-> | Hin];
      [now left | now right].
  - intros p [<- | Hin].
    + apply running_min_le_start.
    + apply running_min_lower_bound. now apply in_map.
Qed.

Lemma min_loop_none (cur : Z) (rs : list reply) :
  In RNone rs -> min_loop cur rs = Raise TypeError.
Proof.
  revert cur. induction rs as [| b rs IH]; intros cur Hin.
  - destruct Hin.
  - destruct b as [| g c]; cbn.
    + reflexivity.
    + destruct Hin as [Hb | Hin]; [discriminate Hb | now apply IH].
Qed.

Lemma min_first_none (rs : list reply) :
  In RNone rs -> min_first (Results rs) = Raise TypeError.
Proof.
  destruct rs as [| b rs]; intros Hin.
  - destruct Hin.
  - destruct b as [| g c]; cbn.
    + reflexivity.
    + destruct Hin as [Hb | Hin]; [discriminate Hb | now apply min_loop_none].
Qed.

Lemma replies_well_formed_or_none (rs : list reply) :
  In RNone rs \/ exists reports, rs = map blocks reports.
Proof.
  induction rs as [| b rs [Hnone | [reports ->]]].
  - right. now exists [].
  - left. now right.
  - destruct b as [| g c].
    + left. now left.
    + right. now exists ((g, c) :: reports).
Qed.

Lemma min_first_ok_inv (r : run_result) (g : Z) :
  min_first r = Ok g ->
  exists reports, reports <> [] /\ r = Results (map blocks reports).
Proof.
  destruct r as [rs | fs]; intros Hmin.
  - destruct (replies_well_formed_or_none rs) as [Hnone | [reports ->]].
    + rewrite (min_first_none _ Hnone) in Hmin. discriminate Hmin.
    + exists reports. split; [| reflexivity].
      intros ->. discriminate Hmin.
  - destruct fs; discriminate Hmin.
Qed.

Lemma Forall2_In_right (A B : Type) (R : A -> B -> Prop)
    (l1 : list A) (l2 : list B) (y : B) :
  Forall2 R l1 l2 -> In y l2 -> exists x, In x l1 /\ R x y.
Proof.
  induction 1 as [| a b l1 l2 Hab _ IH]; intros Hin.
  - destruct Hin.
  - destruct Hin as [<- | Hin].
    + exists a. split; [now left | exact Hab].
    + destruct (IH Hin) as [x [Hx Hr]]. exists x. split; [now right | exact Hr].
Qed.

(** X1.  A failure of the dispatch is not caught by
    [determine_num_available_blocks]: the call raises that same exception,
    its history is the call and its failure, and the transport is left as
    the failed dispatch left it. *)
Theorem determine_num_available_blocks_dispatch_failure
    {T : Type} `{DistributedGPUExecutor T} (w : world T) (e : exn) (t : T) :
  _run_workers "determine_num_available_blocks" [] false None []
    (transport w) = (Raise e, t) ->
  determine_num_available_blocks w
  = (Raise e,
     mkWorld
       (trace w
        ++ [ECall "determine_num_available_blocks" [] [] false None;
            ERaise "determine_num_available_blocks" e])
       t).
Proof.
  intros E. unfold determine_num_available_blocks, bind at 1.
  now rewrite (call_run_workers_raise _ _ _ _ _ _ _ _ E).
Qed.

Lemma determine_num_available_blocks_dispatch_failure_witness :
  determine_num_available_blocks (start pool4_no_report)
  = (Raise (WorkerExecutionError 1 "determine_num_available_blocks"
              "device lost"),
     mkWorld
       (trace (start pool4_no_report)
        ++ [ECall "determine_num_available_blocks" [] [] false None;
            ERaise "determine_num_available_blocks"
              (WorkerExecutionError 1 "determine_num_available_blocks"
                 "device lost")])
       (snd (dispatch "determine_num_available_blocks" [] false None []
               (transport (start pool4_no_report))))).
Proof.
  apply (determine_num_available_blocks_dispatch_failure
           (start pool4_no_report)).
  reflexivity.
Defined.

(** X2.  When some worker's answer to the block query is [None] instead of a
    pair of counts, [determine_num_available_blocks] raises [TypeError],
    wherever that answer stands among the others. *)
Theorem determine_num_available_blocks_malformed_report
    {T : Type} `{DistributedGPUExecutor T}
    (w : world T) (rs : list reply) (t : T) :
  _run_workers "determine_num_available_blocks" [] false None []
    (transport w) = (Ok (Results rs), t) ->
  In RNone rs ->
  fst (determine_num_available_blocks w) = Raise TypeError.
Proof.
  intros E Hnone.
  rewrite (determine_num_available_blocks_unfold _ _ _ E).
  cbn [fst]. now rewrite (min_first_none _ Hnone).
Qed.

Lemma determine_num_available_blocks_malformed_report_witness :
  fst (determine_num_available_blocks (start pool4_silent))
  = Raise TypeError.
Proof.
  apply (determine_num_available_blocks_malformed_report
           (start pool4_silent)
           [RBlocks 100 7; RBlocks 80 3; RBlocks 120 0; RNone]
           (snd (dispatch "determine_num_available_blocks" [] false None []
                   (transport (start pool4_silent))))).
  - reflexivity.
  - right. right. right. now left.
Defined.

(** X3.  The negotiated size does not depend on the order of the workers:
    two runs whose reports are permutations of each other end with the same
    result. *)
Theorem determine_num_available_blocks_order_independent
    {T : Type} `{DistributedGPUExecutor T}
    (w1 w2 : world T) (reports1 reports2 : list (Z * Z)) (t1 t2 : T) :
  _run_workers "determine_num_available_blocks" [] false None []
    (transport w1) = (Ok (Results (map blocks reports1)), t1) ->
  _run_workers "determine_num_available_blocks" [] false None []
    (transport w2) = (Ok (Results (map blocks reports2)), t2) ->
  Permutation reports1 reports2 ->
  fst (determine_num_available_blocks w1)
  = fst (determine_num_available_blocks w2).
Proof.
  intros E1 E2 Hperm.
  rewrite (determine_num_available_blocks_unfold _ _ _ E1).
  rewrite (determine_num_available_blocks_unfold _ _ _ E2).
  cbn [fst]. f_equal.
  destruct reports1 as [| r1 rs1], reports2 as [| r2 rs2].
  - reflexivity.
  - apply Permutation_nil in Hperm. discriminate Hperm.
  - apply Permutation_sym, Permutation_nil in Hperm. discriminate Hperm.
  - rewrite !min_first_blocks. f_equal.
    destruct (running_min_is_minimum r1 rs1) as [Hin1 Hlow1].
    destruct (running_min_is_minimum r2 rs2) as [Hin2 Hlow2].
    apply in_map_iff in Hin1. destruct Hin1 as [p1 [Hp1 Hin1]].
    apply in_map_iff in Hin2. destruct Hin2 as [p2 [Hp2 Hin2]].
    pose proof (Hlow2 p1 (Permutation_in _ Hperm Hin1)) as L2.
    pose proof (Hlow1 p2 (Permutation_in _ (Permutation_sym Hperm) Hin2))
      as L1.
    lia.
Qed.

Lemma determine_num_available_blocks_order_independent_witness :
  fst (determine_num_available_blocks (start pool4))
  = fst (determine_num_available_blocks (start pool4_reordered)).
Proof.
  apply (determine_num_available_blocks_order_independent
           (start pool4) (start pool4_reordered)
           [(100, 7); (80, 3); (120, 0); (90, 11)]
           [(90, 11); (120, 0); (100, 7); (80, 3)]
           (snd (dispatch "determine_num_available_blocks" [] false None []
                   (transport (start pool4))))
           (snd (dispatch "determine_num_available_blocks" [] false None []
                   (transport (start pool4_reordered))))).
  - reflexivity.
  - reflexivity.
  - apply perm_trans with
      [(100, 7); (80, 3); (90, 11); (120, 0)].
    + apply perm_skip, perm_skip, perm_swap.
    + apply perm_trans with [(100, 7); (90, 11); (80, 3); (120, 0)].
      * apply perm_skip, perm_swap.
      * apply perm_trans with [(90, 11); (100, 7); (80, 3); (120, 0)].
        -- apply perm_swap.
        -- apply perm_skip.
           apply perm_trans with [(100, 7); (120, 0); (80, 3)].
           ++ apply perm_skip, perm_swap.
           ++ apply perm_trans with [(120, 0); (100, 7); (80, 3)].
              ** apply perm_swap.
              ** apply Permutation_refl.
Defined.

(** X4.  The negotiated size is monotone in the reports: when every worker
    of a second run reports at least what the worker at the same place
    reported in the first run, the second result is at least the first. *)
Theorem determine_num_available_blocks_monotone
    {T : Type} `{DistributedGPUExecutor T}
    (w1 w2 : world T) (reports1 reports2 : list (Z * Z)) (t1 t2 : T) :
  reports1 <> [] ->
  _run_workers "determine_num_available_blocks" [] false None []
    (transport w1) = (Ok (Results (map blocks reports1)), t1) ->
  _run_workers "determine_num_available_blocks" [] false None []
    (transport w2) = (Ok (Results (map blocks reports2)), t2) ->
  Forall2 (fun p q => fst p <= fst q) reports1 reports2 ->
  exists m1 m2 : Z,
    fst (determine_num_available_blocks w1) = Ok (m1, 0) /\
    fst (determine_num_available_blocks w2) = Ok (m2, 0) /\
    m1 <= m2.
Proof.
  intros Hne E1 E2 Hle.
  rewrite (determine_num_available_blocks_unfold _ _ _ E1).
  rewrite (determine_num_available_blocks_unfold _ _ _ E2).
  cbn [fst].
  destruct reports1 as [| r1 rs1]; [congruence |].
  destruct reports2 as [| r2 rs2]; [inversion Hle |].
  rewrite !min_first_blocks. cbn [outcome_bind].
  exists (running_min (fst r1) (map fst rs1)),
         (running_min (fst r2) (map fst rs2)).
  split; [reflexivity |]. split; [reflexivity |].
  destruct (running_min_is_minimum r1 rs1) as [_ Hlow1].
  destruct (running_min_is_minimum r2 rs2) as [Hin2 _].
  apply in_map_iff in Hin2. destruct Hin2 as [q [Hq Hin2]].
  destruct (Forall2_In_right _ _ _ _ _ _ Hle Hin2) as [p [Hp Hpq]].
  specialize (Hlow1 p Hp). lia.
Qed.

Lemma determine_num_available_blocks_monotone_witness :
  exists m1 m2 : Z,
    fst (determine_num_available_blocks (start pool4)) = Ok (m1, 0) /\
    fst (determine_num_available_blocks (start pool4_roomier)) = Ok (m2, 0) /\
    m1 <= m2.
Proof.
  apply (determine_num_available_blocks_monotone
           (start pool4) (start pool4_roomier)
           [(100, 7); (80, 3); (120, 0); (90, 11)]
           [(100, 7); (95, 3); (150, 0); (90, 11)]
           (snd (dispatch "determine_num_available_blocks" [] false None []
                   (transport (start pool4))))
           (snd (dispatch "determine_num_available_blocks" [] false None []
                   (transport (start pool4_roomier))))).
  - discriminate.
  - reflexivity.
  - reflexivity.
  - repeat constructor; cbn; lia.
Defined.

(** X5.  A bound every worker meets is met by the negotiated size: when all
    reported primary counts are at least [k] (on a non-empty pool), so is
    the result; in particular positive reports give a positive size. *)
Theorem determine_num_available_blocks_keeps_lower_bound
    {T : Type} `{DistributedGPUExecutor T}
    (w : world T) (reports : list (Z * Z)) (t : T) (k : Z) :
  reports <> [] ->
  _run_workers "determine_num_available_blocks" [] false None []
    (transport w) = (Ok (Results (map blocks reports)), t) ->
  Forall (fun p => k <= fst p) reports ->
  exists m : Z,
    fst (determine_num_available_blocks w) = Ok (m, 0) /\ k <= m.
Proof.
  intros Hne E Hall.
  rewrite (determine_num_available_blocks_unfold _ _ _ E). cbn [fst].
  destruct reports as [| r rs]; [congruence |].
  rewrite min_first_blocks. cbn [outcome_bind].
  exists (running_min (fst r) (map fst rs)). split; [reflexivity |].
  destruct (running_min_is_minimum r rs) as [Hin _].
  apply in_map_iff in Hin. destruct Hin as [p [<- Hin]].
  rewrite Forall_forall in Hall. now apply Hall.
Qed.

Lemma determine_num_available_blocks_keeps_lower_bound_witness :
  exists m : Z,
    fst (determine_num_available_blocks (start pool4)) = Ok (m, 0) /\
    1 <= m.
Proof.
  apply (determine_num_available_blocks_keeps_lower_bound
           (start pool4)
           [(100, 7); (80, 3); (120, 0); (90, 11)]
           (snd (dispatch "determine_num_available_blocks" [] false None []
                   (transport (start pool4))))
           1).
  - discriminate.
  - reflexivity.
  - repeat constructor; cbn; lia.
Defined.

(** X6.  Whatever the workers answer, [determine_num_available_blocks]
    makes exactly one dispatch, of the block query, without arguments and
    in the blocking mode; computing the minimum adds nothing to the history
    and leaves the transport as that dispatch left it. *)
Theorem determine_num_available_blocks_single_dispatch
    {T : Type} `{DistributedGPUExecutor T} (w : world T) :
  exists leave : event,
    trace (snd (determine_num_available_blocks w))
    = trace w
      ++ [ECall "determine_num_available_blocks" [] [] false None; leave] /\
    (leave = EReturn "determine_num_available_blocks" \/
     exists e, leave = ERaise "determine_num_available_blocks" e) /\
    transport (snd (determine_num_available_blocks w))
    = snd (_run_workers "determine_num_available_blocks" [] false None []
             (transport w)).
Proof.
  destruct (_run_workers "determine_num_available_blocks" [] false None []
              (transport w)) as [[r | e] t] eqn:E.
  - rewrite (determine_num_available_blocks_unfold _ _ _ E).
    eexists. split; [reflexivity |]. split; [now left | reflexivity].
  - assert (D : determine_num_available_blocks w
                = (Raise e,
                   mkWorld
                     (trace w
                      ++ [ECall "determine_num_available_blocks"
                            [] [] false None;
                          ERaise "determine_num_available_blocks" e])
                     t)).
    { unfold determine_num_available_blocks, bind at 1.
      now rewrite (call_run_workers_raise _ _ _ _ _ _ _ _ E). }
    rewrite D.
    eexists. split; [reflexivity |]. split; [right; now exists e | reflexivity].
Qed.

(** X7.  [determine_num_available_blocks] returns only after a dispatch
    that returned normally a non-empty sequence of answers none of which is
    [None]; the second component it returns is then 0, and the first is the
    first component of one of the answers, which no answer undercuts. *)
Theorem determine_num_available_blocks_returns_only_if
    {T : Type} `{DistributedGPUExecutor T}
    (w : world T) (num_gpu_blocks num_cpu_blocks : Z) :
  fst (determine_num_available_blocks w)
  = Ok (num_gpu_blocks, num_cpu_blocks) ->
  exists (rs : list reply) (t : T),
    _run_workers "determine_num_available_blocks" [] false None []
      (transport w) = (Ok (Results rs), t) /\
    rs <> [] /\
    ~ In RNone rs /\
    num_cpu_blocks = 0 /\
    (exists c, In (RBlocks num_gpu_blocks c) rs) /\
    (forall g c, In (RBlocks g c) rs -> num_gpu_blocks <= g).
Proof.
  intros Hret.
  destruct (_run_workers "determine_num_available_blocks" [] false None []
              (transport w)) as [[r | e] t] eqn:E.
  - rewrite (determine_num_available_blocks_unfold _ _ _ E) in Hret.
    cbn [fst] in Hret.
    destruct (min_first r) as [g | e] eqn:Hmin; [| discriminate Hret].
    cbn in Hret. injection Hret as -> <-.
    destruct (min_first_ok_inv _ _ Hmin) as [reports [Hne ->]].
    exists (map blocks reports), t. split; [reflexivity |].
    destruct reports as [| p ps]; [congruence |].
    rewrite min_first_blocks in Hmin. injection Hmin as <-.
    destruct (running_min_is_minimum p ps) as [Hin Hlow].
    split; [discriminate |]. split; [| split; [reflexivity | split]].
    + intros Hnone. apply in_map_iff in Hnone.
      destruct Hnone as [q [Hq _]]. discriminate Hq.
    + apply in_map_iff in Hin. destruct Hin as [q [Hq Hin]].
      exists (snd q). rewrite <- Hq. now apply (in_map blocks) in Hin.
    + intros g c Hg. apply in_map_iff in Hg. destruct Hg as [q [Hq Hg]].
      injection Hq as <- _. now apply Hlow.
  - rewrite (determine_num_available_blocks_propagates _ _ _ E) in Hret.
    discriminate Hret.
Qed.

Lemma determine_num_available_blocks_returns_only_if_witness :
  exists (rs : list reply) (t : cluster),
    _run_workers "determine_num_available_blocks" [] false None []
      (transport (start pool4)) = (Ok (Results rs), t) /\
    rs <> [] /\
    ~ In RNone rs /\
    0 = 0 /\
    (exists c, In (RBlocks 80 c) rs) /\
    (forall g c, In (RBlocks g c) rs -> 80 <= g).
Proof.
  apply (determine_num_available_blocks_returns_only_if (start pool4) 80 0).
  reflexivity.
Defined.

(** ** More on cache initialization *)

(** X8.  When the cache initialization succeeds and the warm-up dispatch
    fails, [initialize_cache] raises the warm-up failure and makes no
    further dispatch: the initialization already made is not taken back, and
    the transport is left as the failed warm-up left it. *)
Theorem initialize_cache_warm_up_failure
    {T : Type} `{DistributedGPUExecutor T} (num_gpu_blocks : Z) (w : world T)
    (r : run_result) (t : T) (e : exn) (t' : T) :
  _run_workers "initialize_cache" [VInt num_gpu_blocks] false None []
    (transport w) = (Ok r, t) ->
  _run_workers "compile_or_warm_up_model" [] false None [] t
  = (Raise e, t') ->
  initialize_cache num_gpu_blocks w
  = (Raise e,
     mkWorld
       (trace w
        ++ [ELog "# GPU blocks: %d" num_gpu_blocks;
            ECall "initialize_cache" [VInt num_gpu_blocks] [] false None;
            EReturn "initialize_cache";
            ECall "compile_or_warm_up_model" [] [] false None;
            ERaise "compile_or_warm_up_model" e])
       t').
Proof.
  intros E1 E2. exact (initialize_cache_warm_up_fails _ _ _ _ _ _ E1 E2).
Qed.

Lemma initialize_cache_warm_up_failure_witness :
  initialize_cache 80 (start pool4_cold)
  = (Raise (WorkerExecutionError 1 "compile_or_warm_up_model"
              "compilation failed"),
     mkWorld
       (trace (start pool4_cold)
        ++ [ELog "# GPU blocks: %d" 80;
            ECall "initialize_cache" [VInt 80] [] false None;
            EReturn "initialize_cache";
            ECall "compile_or_warm_up_model" [] [] false None;
            ERaise "compile_or_warm_up_model"
              (WorkerExecutionError 1 "compile_or_warm_up_model"
                 "compilation failed")])
       (snd (dispatch "compile_or_warm_up_model" [] false None []
               (snd (dispatch "initialize_cache" [VInt 80] false None []
                       (transport (start pool4_cold))))))).
Proof.
  apply (initialize_cache_warm_up_failure 80 (start pool4_cold)
           (Results [RNone; RNone; RNone; RNone])
           (snd (dispatch "initialize_cache" [VInt 80] false None []
                   (transport (start pool4_cold))))).
  - reflexivity.
  - reflexivity.
Defined.

(** X9.  [initialize_cache] returns normally exactly when both of its
    dispatches succeed, the warm-up one on the transport as the
    initialization left it; the block count is never checked, so no value
    of it makes the call fail by itself. *)
Theorem initialize_cache_returns_iff
    {T : Type} `{DistributedGPUExecutor T} (num_gpu_blocks : Z)
    (w : world T) :
  fst (initialize_cache num_gpu_blocks w) = Ok tt <->
  exists (r : run_result) (t : T) (r' : run_result) (t' : T),
    _run_workers "initialize_cache" [VInt num_gpu_blocks] false None []
      (transport w) = (Ok r, t) /\
    _run_workers "compile_or_warm_up_model" [] false None [] t
    = (Ok r', t').
Proof.
  split.
  - intros Hret.
    destruct (_run_workers "initialize_cache" [VInt num_gpu_blocks]
                false None [] (transport w)) as [[r | e] t] eqn:E1.
    + destruct (_run_workers "compile_or_warm_up_model" [] false None [] t)
        as [[r' | e] t'] eqn:E2.
      * exists r, t, r', t'. now split.
      * rewrite (initialize_cache_warm_up_fails _ _ _ _ _ _ E1 E2) in Hret.
        discriminate Hret.
    + rewrite (initialize_cache_init_fails _ _ _ _ E1) in Hret.
      discriminate Hret.
  - intros [r [t [r' [t' [E1 E2]]]]].
    now rewrite (initialize_cache_succeeds _ _ _ _ _ _ E1 E2).
Qed.

(** ** The class as a whole *)

(** X10.  The three concrete methods only ever add to the history, and
    every dispatch they enter is in the blocking mode over all workers: none
    of them asks for the asynchronous subset or sets a launch bound. *)
Theorem methods_dispatch_in_blocking_mode_only
    {T : Type} `{DistributedGPUExecutor T} (w : world T)
    (num_gpu_blocks : Z) (path : string) (pattern : option string)
    (max_size : option Z) :
  (exists evs,
      trace (snd (determine_num_available_blocks w)) = trace w ++ evs /\
      forallb blocking_call evs = true) /\
  (exists evs,
      trace (snd (initialize_cache num_gpu_blocks w)) = trace w ++ evs /\
      forallb blocking_call evs = true) /\
  (exists evs,
      trace (snd (save_sharded_state path pattern max_size w))
      = trace w ++ evs /\
      forallb blocking_call evs = true).
Proof.
  split; [| split].
  - destruct (_run_workers "determine_num_available_blocks" [] false None []
                (transport w)) as [[r | e] t] eqn:E.
    + rewrite (determine_num_available_blocks_unfold _ _ _ E).
      eexists. split; reflexivity.
    + unfold determine_num_available_blocks, bind at 1.
      rewrite (call_run_workers_raise _ _ _ _ _ _ _ _ E).
      eexists. split; reflexivity.
  - destruct (initialize_cache_history num_gpu_blocks w)
      as [tail [Htr Hcases]].
    rewrite Htr.
    destruct Hcases as [[e ->] | [[e ->] | ->]];
      eexists; split; reflexivity.
  - unfold save_sharded_state, bind.
    destruct (call_run_workers_cases "save_sharded_state" [] false None
                [("path", VStr path);
                 ("pattern", of_optional VStr pattern);
                 ("max_size", of_optional VInt max_size)] w)
      as [[r [t [_ ->]]] | [e [t [_ ->]]]];
      eexists; split; reflexivity.
Qed.

(** X11.  Negotiation followed by initialization: the size
    [determine_num_available_blocks] returns, given to [initialize_cache],
    is the size dispatched to the workers, and it exceeds no worker's
    report; the history is the negotiation's dispatch followed by the log
    record and the initialization call carrying that size. *)
Theorem negotiated_size_is_dispatched
    {T : Type} `{DistributedGPUExecutor T}
    (w : world T) (reports : list (Z * Z)) (t : T) :
  reports <> [] ->
  _run_workers "determine_num_available_blocks" [] false None []
    (transport w) = (Ok (Results (map blocks reports)), t) ->
  exists (m : Z) (w1 : world T) (rest : list event),
    determine_num_available_blocks w = (Ok (m, 0), w1) /\
    (forall p, In p reports -> m <= fst p) /\
    trace (snd (initialize_cache m w1))
    = trace w
      ++ [ECall "determine_num_available_blocks" [] [] false None;
          EReturn "determine_num_available_blocks";
          ELog "# GPU blocks: %d" m;
          ECall "initialize_cache" [VInt m] [] false None]
      ++ rest.
Proof.
  intros Hne E. destruct reports as [| r rs]; [congruence |].
  rewrite (determine_num_available_blocks_unfold _ _ _ E).
  rewrite min_first_blocks. cbn [outcome_bind].
  set (m := running_min (fst r) (map fst rs)).
  set (w1 := mkWorld _ t).
  destruct (initialize_cache_history m w1) as [tail [Htr _]].
  exists m, w1, tail. split; [reflexivity |]. split.
  - apply running_min_is_minimum.
  - rewrite Htr. subst w1. cbn [trace]. now rewrite <- app_assoc.
Qed.

Lemma negotiated_size_is_dispatched_witness :
  exists (m : Z) (w1 : world cluster) (rest : list event),
    determine_num_available_blocks (start pool4) = (Ok (m, 0), w1) /\
    (forall p, In p [(100, 7); (80, 3); (120, 0); (90, 11)] -> m <= fst p) /\
    trace (snd (initialize_cache m w1))
    = trace (start pool4)
      ++ [ECall "determine_num_available_blocks" [] [] false None;
          EReturn "determine_num_available_blocks";
          ELog "# GPU blocks: %d" m;
          ECall "initialize_cache" [VInt m] [] false None]
      ++ rest.
Proof.
  apply (negotiated_size_is_dispatched (start pool4)
           [(100, 7); (80, 3); (120, 0); (90, 11)]
           (snd (dispatch "determine_num_available_blocks" [] false None []
                   (transport (start pool4))))).
  - discriminate.
  - reflexivity.
Defined.

(** X12.  On the base class, whatever the state of the object, none of
    the three concrete methods can complete: each raises
    [NotImplementedError] at its first dispatch, which it has recorded;
    [initialize_cache] has written its log record by then; and the state of
    the object is left as it was. *)
Theorem base_class_methods_not_implemented
    {T : Type} (w : world T) (num_gpu_blocks : Z) (path : string)
    (pattern : option string) (max_size : option Z) :
  @determine_num_available_blocks T (base_class T) w
  = (Raise NotImplementedError,
     mkWorld
       (trace w
        ++ [ECall "determine_num_available_blocks" [] [] false None;
            ERaise "determine_num_available_blocks" NotImplementedError])
       (transport w)) /\
  @initialize_cache T (base_class T) num_gpu_blocks w
  = (Raise NotImplementedError,
     mkWorld
       (trace w
        ++ [ELog "# GPU blocks: %d" num_gpu_blocks;
            ECall "initialize_cache" [VInt num_gpu_blocks] [] false None;
            ERaise "initialize_cache" NotImplementedError])
       (transport w)) /\
  @save_sharded_state T (base_class T) path pattern max_size w
  = (Raise NotImplementedError,
     mkWorld
       (trace w
        ++ [ECall "save_sharded_state" []
              [("path", VStr path);
               ("pattern", of_optional VStr pattern);
               ("max_size", of_optional VInt max_size)]
              false None;
            ERaise "save_sharded_state" NotImplementedError])
       (transport w)).
Proof.
  split; [| split].
  - unfold determine_num_available_blocks, bind at 1.
    now rewrite (@call_run_workers_raise T (base_class T) _ _ _ _ _ w
                   NotImplementedError (transport w) eq_refl).
  - now apply (@initialize_cache_init_fails T (base_class T)).
  - unfold save_sharded_state, bind.
    now rewrite (@call_run_workers_raise T (base_class T) _ _ _ _ _ w
                   NotImplementedError (transport w) eq_refl).
Qed.

(** ** More on checkpointing *)

(** X13.  A failure of the dispatch is not caught by [save_sharded_state]:
    the call raises that same exception after its single dispatch, and the
    transport is left as the failed dispatch left it. *)
Theorem save_sharded_state_dispatch_failure
    {T : Type} `{DistributedGPUExecutor T}
    (path : string) (pattern : option string) (max_size : option Z)
    (w : world T) (e : exn) (t : T) :
  _run_workers "save_sharded_state" [] false None
    [("path", VStr path);
     ("pattern", of_optional VStr pattern);
     ("max_size", of_optional VInt max_size)]
    (transport w) = (Raise e, t) ->
  save_sharded_state path pattern max_size w
  = (Raise e,
     mkWorld
       (trace w
        ++ [ECall "save_sharded_state" []
              [("path", VStr path);
               ("pattern", of_optional VStr pattern);
               ("max_size", of_optional VInt max_size)]
              false None;
            ERaise "save_sharded_state" e])
       t).
Proof.
  intros E. unfold save_sharded_state, bind.
  now rewrite (call_run_workers_raise _ _ _ _ _ _ _ _ E).
Qed.

Lemma save_sharded_state_dispatch_failure_witness :
  save_sharded_state "/ckpt" (Some "shard-{rank}") (Some 1024)
    (start pool4_disk_full)
  = (Raise (WorkerExecutionError 3 "save_sharded_state" "disk full"),
     mkWorld
       (trace (start pool4_disk_full)
        ++ [ECall "save_sharded_state" []
              [("path", VStr "/ckpt");
               ("pattern", of_optional VStr (Some "shard-{rank}"));
               ("max_size", of_optional VInt (Some 1024))]
              false None;
            ERaise "save_sharded_state"
              (WorkerExecutionError 3 "save_sharded_state" "disk full")])
       (snd (dispatch "save_sharded_state" [] false None
               [("path", VStr "/ckpt");
                ("pattern", VStr "shard-{rank}");
                ("max_size", VInt 1024)]
               (transport (start pool4_disk_full))))).
Proof.
  apply (save_sharded_state_dispatch_failure "/ckpt" (Some "shard-{rank}")
           (Some 1024) (start pool4_disk_full)).
  reflexivity.
Defined.
